(** * The embedding endpoint of [scripts/embed_service.py]

    A shallow embedding of the script: the handler [embed], the module
    top level that creates the shared [model], and the [__main__] block.
    The collaborators the script imports are not part of it:
    - the sentence-embedding library is an interface
      ([SentenceTransformer]); what a claim needs of it is a named
      contract that appears as a hypothesis;
    - the server library is an interface ([Uvicorn]) that decides, from
      the environment, whether the server starts;
    - the web framework's request cycle for the one declared route is
      written out in [post_embed], from the route's declaration
      ([payload: dict], no exception handler, default status). *)

From Stdlib Require Import Floats ZArith Ascii.
From stdpp Require Import gmap strings list fin_maps.

#[local] Set Warnings "-register-all".
#[local] Open Scope Z_scope.

(** ** Python values *)

(** The values a decoded JSON body is made of, which are also the values
    a handler can return.  A [dict] decoded from JSON has string keys.
    A [str] is held as the UTF-8 bytes of its code points; a lone
    surrogate, which a JSON escape such as [\ud800] decodes to and UTF-8
    has no encoding for, is held as the three bytes its code point would
    take. *)
Inductive pyval :=
  | PNone
  | PBool (b : bool)
  | PInt (n : Z)
  | PFloat (x : float)
  | PStr (s : string)
  | PList (items : list pyval)
  | PDict (d : gmap string pyval).

(** [d.get(key, default)] *)
Definition dict_get (d : gmap string pyval) (key : string) (dflt : pyval) : pyval :=
  match d !! key with
  | Some v => v
  | None => dflt
  end.

(** ** Strings that are text *)

Definition byte_in (lo hi : N) (c : ascii) : bool :=
  ((lo <=? N_of_ascii c) && (N_of_ascii c <=? hi))%N.

Definition continuation (c : ascii) : bool := byte_in 128 191 c.

(** The second byte of a three-byte sequence: no overlong form after
    [E0], no surrogate after [ED]. *)
Definition second_of_three (c0 c1 : ascii) : bool :=
  if byte_in 224 224 c0 then byte_in 160 191 c1
  else if byte_in 237 237 c0 then byte_in 128 159 c1
  else continuation c1.

(** The second byte of a four-byte sequence: no overlong form after
    [F0], nothing beyond U+10FFFF after [F4]. *)
Definition second_of_four (c0 c1 : ascii) : bool :=
  if byte_in 240 240 c0 then byte_in 144 191 c1
  else if byte_in 244 244 c0 then byte_in 128 143 c1
  else continuation c1.

(** [s.encode("utf-8")] succeeds: the bytes are well-formed UTF-8, so
    the string has no lone surrogate. *)
Fixpoint well_formed (s : string) : bool :=
  match s with
  | EmptyString => true
  | String c0 s1 =>
      if byte_in 0 127 c0 then well_formed s1 else
      match s1 with
      | EmptyString => false
      | String c1 s2 =>
          if byte_in 194 223 c0 then continuation c1 && well_formed s2 else
          match s2 with
          | EmptyString => false
          | String c2 s3 =>
              if byte_in 224 239 c0
              then second_of_three c0 c1 && continuation c2 && well_formed s3
              else
                match s3 with
                | EmptyString => false
                | String c3 s4 =>
                    byte_in 240 244 c0 && second_of_four c0 c1
                    && continuation c2 && continuation c3 && well_formed s4
                end
          end
      end
  end.

(** An exception, by the name of its class. *)
Inductive exn := Raise (cls : string).

(** ** numpy arrays *)

(** An [ndarray] of floats of any rank: a 0-d scalar or a sequence of
    sub-arrays along the first axis.  Elements are kept by value; the
    widening of a [float32] element to a Python [float] is exact, so it
    does not show at this level. *)
Inductive ndarray :=
  | Scalar (x : float)
  | Axis (rows : list ndarray).

(** [a.tolist()]: the same data as nested Python lists, a plain scalar
    for a 0-d array. *)
Fixpoint tolist (a : ndarray) : pyval :=
  match a with
  | Scalar x => PFloat x
  | Axis rows => PList (map tolist rows)
  end.

(** A 1-d array. *)
Definition vector (xs : list float) : ndarray := Axis (map Scalar xs).

(** ** The embedding library, as the script uses it *)

(** [init name] is [SentenceTransformer(name)]; [encode m x] is
    [m.encode(x)] with every keyword left at its default: it returns an
    array or raises, and leaves the object in a state of its choosing. *)
Class SentenceTransformer := {
  instance : Type;
  init : string -> instance;
  encode : instance -> pyval -> (exn + ndarray) * instance
}.

(** ** What the process does to the outside *)

Inductive event :=
  | EvLoad (name : string)
  | EvEncode (arg : pyval)
  | EvListen (host : string) (port : Z).

Definition is_encode (e : event) : bool :=
  match e with EvEncode _ => true | _ => false end.

(** The models loaded and the addresses bound, in order. *)
Definition loaded (evs : list event) : list string :=
  omap (fun e => match e with EvLoad name => Some name | _ => None end) evs.


(** ** What the client sees *)

(** The body of a request as the framework's reading step leaves it:
    - [Undecodable]: the JSON decoder raised its decode error;
    - [Decoded v]: the decoder returned [v];
    - [Unparsable]: reading raised another exception (bytes that are
      not text, an integer literal beyond the interpreter's digit
      limit);
    - [Undeclared raw]: the request declares a content type that is not
      JSON, so the bytes are handed on as they are;
    - [Absent]: there is no body. *)
Inductive body :=
  | Undecodable
  | Decoded (v : pyval)
  | Unparsable
  | Undeclared (raw : string)
  | Absent.


(** What a request asks the model to encode: the value under [text] of an
    object body, the empty string when the key is missing; nothing for a
    body that is not an object. *)
Definition requested_text (b : body) : option pyval :=
  match b with
  | Decoded (PDict payload) => Some (dict_get payload "text" (PStr ""))
  | _ => None
  end.

Inductive response :=
  | Success (content : pyval)
  | RequestValidationError
  | InternalServerError
  | BodyParsingError.

Definition status_code (r : response) : Z :=
  match r with
  | Success _ => 200
  | RequestValidationError => 422
  | InternalServerError => 500
  | BodyParsingError => 400
  end.

(** What the JSON renderer accepts in a number: it runs with
    [allow_nan=False]. *)
Definition finite (x : float) : bool :=
  negb (PrimFloat.is_nan x) && negb (PrimFloat.is_infinity x).

Fixpoint json_compliant (v : pyval) : bool :=
  match v with
  | PFloat x => finite x
  | PList items => forallb json_compliant items
  | PDict d => map_fold (fun _ v' acc => json_compliant v' && acc) true d
  | _ => true
  end.

(** The environment a process starts in. *)
Record environment := {
  argv : list string;
  environ : gmap string string;
  files : gmap string string
}.

(** ** The server library, as the script uses it *)

(** [starts env] tells whether [uvicorn.run], called in [env] with the
    application given as an object, gets to bind and serve.  It reads
    the environment on its own: when [WEB_CONCURRENCY] asks for more
    than one worker it refuses an application that is not an import
    string, and the process exits. *)
Class Uvicorn := {
  starts : environment -> bool
}.

Section Service.
Context `{L : SentenceTransformer} `{U : Uvicorn}.

(** The module's global [model] and the log of what the process has
    done to the outside so far. *)
Record process := {
  model : instance;
  effects : list event
}.

(** Code that runs in the process and may raise. *)
Definition Py (A : Type) : Type := process -> (exn + A) * process.

#[global] Instance Py_ret : MRet Py := fun A a p => (inr a, p).

#[global] Instance Py_bind : MBind Py := fun A B k c p =>
  match c p with
  | (inr a, p') => k a p'
  | (inl e, p') => (inl e, p')
  end.

(** [model.encode(x)]: the global [model] is read at the call. *)
Definition model_encode (x : pyval) : Py ndarray := fun p =>
  let '(r, m') := encode (model p) x in
  (r, {| model := m'; effects := effects p ++ [EvEncode x] |}).

(** The handler.
<<
    def embed(payload: dict):
        text = payload.get("text","")
        vec = model.encode(text).tolist()
        return vec
>> *)
Definition embed (payload : gmap string pyval) : Py pyval :=
  let text := dict_get payload "text" (PStr "") in
  vec ← (a ← model_encode text; mret (tolist a));
  mret vec.

(** One request to [POST /embed].  The route declares one body
    parameter of type [dict], so a body that is not a decoded JSON
    object is answered by the framework without calling the handler:
    with its parsing error when reading raised something other than the
    decode error, with its validation error otherwise.  An exception of
    the handler or of the renderer is answered with the framework's
    generic error. *)
Definition post_embed (b : body) (p : process) : response * process :=
  match b with
  | Decoded (PDict payload) =>
      match embed payload p with
      | (inr v, p') =>
          (if json_compliant v then Success v else InternalServerError, p')
      | (inl _, p') => (InternalServerError, p')
      end
  | Unparsable => (BodyParsingError, p)
  | _ => (RequestValidationError, p)
  end.

(** The requests that arrive, answered in order. *)
Fixpoint serve (incoming : list body) (p : process) : list response * process :=
  match incoming with
  | [] => ([], p)
  | b :: rest =>
      let '(r, p') := post_embed b p in
      let '(rs, p'') := serve rest p' in
      (r :: rs, p'')
  end.

Definition model_name : string := "all-MiniLM-L6-v2".

(** The module top level: [model = SentenceTransformer("all-MiniLM-L6-v2")].
    [init] is what the constructor returns; a run in which it raises
    ends there and has no process. *)
Definition import_module : process :=
  {| model := init model_name; effects := [EvLoad model_name] |}.

(** [uvicorn.run(app, host=..., port=...)] in environment [env]: when
    the server starts, bind, then serve what arrives until the process
    is terminated; otherwise the process ends as it is. *)
Definition uvicorn_run (env : environment) (host : string) (port : Z)
    (incoming : list body) (p : process) : list response * process :=
  if starts env
  then serve incoming
         {| model := model p; effects := effects p ++ [EvListen host port] |}
  else ([], p).

(** The script, run with [__name__ = name] in environment [env].
<<
    if __name__ == "__main__":
        uvicorn.run(app, host="0.0.0.0", port=8081)
>> *)
Definition script (name : string) (env : environment) (incoming : list body)
    : list response * process :=
  let p := import_module in
  if decide (name = "__main__"%string)
  then uvicorn_run env "0.0.0.0" 8081 incoming p
  else ([], p).

(** The response to [b] once the requests [history] have been served. *)
Definition response_after (history : list body) (b : body) : response :=
  (post_embed b (serve history import_module).2).1.

(** *** Contracts of the library *)

(** The object [m] maps every string that is text to a vector of [N]
    finite numbers. *)
Definition has_dimension (m : instance) (N : nat) : Prop :=
  forall s, well_formed s = true -> exists xs,
    (encode m (PStr s)).1 = inr (vector xs)
    /\ length xs = N /\ forallb finite xs = true.

(** Inference leaves the object as it was. *)
Definition read_only : Prop :=
  forall m x, (encode m x).2 = m.

(** The library refuses [None]. *)
Definition rejects_none (m : instance) : Prop :=
  exists e, (encode m PNone).1 = inl e.

End Service.

(** ** A stand-in for the library *)

(** A deterministic, stateless implementation of the interface, for
    running the service on concrete requests.  It follows the library's
    signature [encode(sentences: str | list[str])]: a sentence gives a
    vector of [stub_dim] numbers, a list of sentences gives one row per
    sentence, anything else is a [TypeError]; so is a sentence that is
    not text, which the tokenizer cannot take.  The loaded object is
    represented by the name it was loaded under. *)
Module Stub.

Definition stub_dim : nat := 384.

Definition embedding (s : string) : list float :=
  match s with
  | EmptyString => repeat 0%float stub_dim
  | String _ _ => repeat 0.5%float stub_dim
  end.

Definition sentence (v : pyval) : option string :=
  match v with
  | PStr s => if well_formed s then Some s else None
  | _ => None
  end.

Definition stub_encode (m : string) (x : pyval) : (exn + ndarray) * string :=
  match x with
  | PStr s =>
      if well_formed s
      then (inr (vector (embedding s)), m)
      else (inl (Raise "TypeError"), m)
  | PList items =>
      match mapM sentence items with
      | Some ss => (inr (Axis (map (fun s => vector (embedding s)) ss)), m)
      | None => (inl (Raise "TypeError"), m)
      end
  | _ => (inl (Raise "TypeError"), m)
  end.

Definition library : SentenceTransformer :=
  {| instance := string; init := fun name => name; encode := stub_encode |}.

(** The process of the stand-in right after the module is imported. *)
Definition started : @process library := @import_module library.

Definition hello : gmap string pyval := {[ "text"%string := PStr "hello" ]}.

Definition hello_verbose : gmap string pyval :=
  {[ "text"%string := PStr "hello"; "lang"%string := PStr "en"; "top_k"%string := PInt 5 ]}.

Definition no_text : gmap string pyval := {[ "lang"%string := PStr "en" ]}.

Definition null_text : gmap string pyval := {[ "text"%string := PNone ]}.

Definition two_sentences : gmap string pyval :=
  {[ "text"%string := PList [PStr "hello"; PStr "world"] ]}.

(** The body [{"text": "\ud800"}]: a lone surrogate. *)
Definition surrogate_text : gmap string pyval :=
  {[ "text"%string := PStr (String "237" (String "160" (String "128" EmptyString))) ]}.

(** A stand-in for the server library, with its rule for the number of
    workers: [WEB_CONCURRENCY], when set, must read as a number, and an
    application given as an object is served by one worker only. *)
Definition digit (c : ascii) : option Z :=
  if byte_in 48 57 c then Some (Z.of_N (N_of_ascii c) - 48) else None.

Fixpoint decimal_from (acc : Z) (s : string) : option Z :=
  match s with
  | EmptyString => Some acc
  | String c s' =>
      match digit c with
      | Some d => decimal_from (10 * acc + d) s'
      | None => None
      end
  end.

Definition decimal (s : string) : option Z :=
  match s with
  | EmptyString => None
  | String _ _ => decimal_from 0 s
  end.

Definition stub_starts (env : environment) : bool :=
  match environ env !! "WEB_CONCURRENCY"%string with
  | None => true
  | Some s =>
      match decimal s with
      | Some workers => workers <=? 1
      | None => false
      end
  end.

Definition server : Uvicorn := {| starts := stub_starts |}.

Definition no_environment : environment :=
  {| argv := []; environ := ∅; files := ∅ |}.



End Stub.

(** * Properties *)

Section Properties.
Context `{L : SentenceTransformer} `{U : Uvicorn}.

Implicit Types (p : process) (d payload : gmap string pyval) (b : body).

(** ** The handler and the request cycle, unfolded *)

Lemma embed_unfold payload p :
  let text := dict_get payload "text" (PStr "") in
  let p' := {| model := (encode (model p) text).2;
               effects := effects p ++ [EvEncode text] |} in
  embed payload p =
    (match (encode (model p) text).1 with
     | inr a => inr (tolist a)
     | inl e => inl e
     end, p').
Proof.
  unfold embed, mbind, Py_bind, mret, Py_ret, model_encode. cbn.
  destruct (encode (model p) _) as [[e|a] m']; reflexivity.
Qed.

Lemma post_embed_unfold payload p :
  let text := dict_get payload "text" (PStr "") in
  let p' := {| model := (encode (model p) text).2;
               effects := effects p ++ [EvEncode text] |} in
  post_embed (Decoded (PDict payload)) p =
    (match (encode (model p) text).1 with
     | inr a => if json_compliant (tolist a)
                then Success (tolist a) else InternalServerError
     | inl _ => InternalServerError
     end, p').
Proof.
  cbn zeta. unfold post_embed. rewrite embed_unfold. cbn zeta.
  destruct (encode (model p) _).1; reflexivity.
Qed.

Lemma tolist_vector (xs : list float) :
  tolist (vector xs) = PList (map PFloat xs).
Proof. unfold vector. cbn. by rewrite map_map. Qed.

Lemma json_compliant_floats (xs : list float) :
  forallb finite xs = true -> json_compliant (PList (map PFloat xs)) = true.
Proof.
  cbn. induction xs as [|x xs IH]; cbn; [done|].
  intros [Hx Hxs]%andb_true_iff. rewrite Hx. cbn. auto.
Qed.

(** A request whose [text] is what the model embeds as [xs]. *)
Lemma post_embed_vector payload p (xs : list float) :
  (encode (model p) (dict_get payload "text" (PStr ""))).1 = inr (vector xs) ->
  forallb finite xs = true ->
  (post_embed (Decoded (PDict payload)) p).1 = Success (PList (map PFloat xs)).
Proof.
  intros He Hfin. rewrite post_embed_unfold. cbn zeta. cbn [fst].
  rewrite He, tolist_vector, json_compliant_floats; done.
Qed.

Lemma dict_get_present d key v dflt : d !! key = Some v -> dict_get d key dflt = v.
Proof. unfold dict_get. by intros ->. Qed.

Lemma dict_get_absent d key dflt : d !! key = None -> dict_get d key dflt = dflt.
Proof. unfold dict_get. by intros ->. Qed.

Lemma dict_get_same_key d1 d2 key dflt :
  d1 !! key = d2 !! key -> dict_get d1 key dflt = dict_get d2 key dflt.
Proof. unfold dict_get. by intros ->. Qed.


Lemma post_embed_effects payload p :
  effects (post_embed (Decoded (PDict payload)) p).2
  = effects p ++ [EvEncode (dict_get payload "text" (PStr ""))].
Proof. by rewrite post_embed_unfold. Qed.

Lemma post_embed_success b p v :
  (post_embed b p).1 = Success v ->
  exists payload a,
    b = Decoded (PDict payload)
    /\ (encode (model p) (dict_get payload "text" (PStr ""))).1 = inr a
    /\ v = tolist a.
Proof.
  destruct b as [|[]| | |]; try discriminate.
  rewrite post_embed_unfold. cbn zeta. cbn [fst].
  destruct (encode (model p) _).1 as [e|a] eqn:He; [discriminate|].
  destruct (json_compliant (tolist a)); [|discriminate].
  intros [= <-]. eauto.
Qed.

Lemma post_embed_fault payload p e :
  (encode (model p) (dict_get payload "text" (PStr ""))).1 = inl e ->
  (post_embed (Decoded (PDict payload)) p).1 = InternalServerError.
Proof. intros He. rewrite post_embed_unfold. cbn zeta. cbn [fst]. by rewrite He. Qed.

(** ** Requests to [POST /embed] *)

(** C1, as amended: for a request whose body is a JSON object with a
    string under [text], a vector of finite numbers returned by the
    encode call for that string is answered with status 200 and a JSON
    array of exactly those numbers, as many as the vector has; a string
    the encode call refuses is answered with the generic server error. *)
Theorem embed_string_gives_vector p payload (s : string) :
  payload !! "text"%string = Some (PStr s) ->
  (forall (N : nat) (xs : list float),
      (encode (model p) (PStr s)).1 = inr (vector xs) ->
      length xs = N ->
      forallb finite xs = true ->
      exists items,
        (post_embed (Decoded (PDict payload)) p).1 = Success (PList items)
        /\ status_code (post_embed (Decoded (PDict payload)) p).1 = 200
        /\ length items = N
        /\ items = map PFloat xs)
  /\ (forall e,
        (encode (model p) (PStr s)).1 = inl e ->
        (post_embed (Decoded (PDict payload)) p).1 = InternalServerError
        /\ status_code (post_embed (Decoded (PDict payload)) p).1 = 500).
Proof.
  intros Htext.
  assert (Hget : dict_get payload "text" (PStr "") = PStr s)
    by by apply dict_get_present.
  split.
  - intros N xs He Hlen Hfin. exists (map PFloat xs).
    assert (Hr : (post_embed (Decoded (PDict payload)) p).1
                 = Success (PList (map PFloat xs))).
    { apply post_embed_vector; [|done]. by rewrite Hget. }
    rewrite Hr. by rewrite length_map.
  - intros e He.
    assert (Hr : (post_embed (Decoded (PDict payload)) p).1 = InternalServerError).
    { apply (post_embed_fault _ _ e). by rewrite Hget. }
    by rewrite Hr.
Qed.

(** C2: a request whose JSON object has no [text] key is handled exactly
    as the request [{"text": ""}]: same response, same resulting process;
    with a model of dimension [N] that is status 200 and the [N] numbers
    the model gives for the empty string. *)
Theorem embed_missing_text_is_empty_string p (N : nat) payload :
  payload !! "text"%string = None ->
  post_embed (Decoded (PDict payload)) p
    = post_embed (Decoded (PDict {[ "text"%string := PStr "" ]})) p
  /\ (has_dimension (model p) N ->
      exists xs : list float,
        (encode (model p) (PStr "")).1 = inr (vector xs)
        /\ (post_embed (Decoded (PDict payload)) p).1 = Success (PList (map PFloat xs))
        /\ status_code (post_embed (Decoded (PDict payload)) p).1 = 200
        /\ length xs = N).
Proof.
  intros Habs.
  assert (Hget : dict_get payload "text" (PStr "") = PStr "")
    by by apply dict_get_absent.
  split.
  - rewrite !post_embed_unfold. cbn zeta. rewrite Hget.
    by rewrite (dict_get_present {[ "text"%string := PStr "" ]} "text" (PStr "") (PStr ""))
      by apply lookup_singleton_eq.
  - intros Hdim. destruct (Hdim ""%string eq_refl) as (xs & He & Hlen & Hfin).
    exists xs.
    assert (Hr : (post_embed (Decoded (PDict payload)) p).1
                 = Success (PList (map PFloat xs))).
    { apply post_embed_vector; [|done]. by rewrite Hget. }
    by rewrite Hr.
Qed.

(** C4: two requests whose JSON objects agree under [text] (the same
    value, or both without the key) are handled alike whatever their
    other keys: the handler is the same computation, and from the same
    process the response and the resulting process are equal. *)
Theorem embed_reads_only_text (d1 d2 : gmap string pyval) :
  d1 !! "text"%string = d2 !! "text"%string ->
  embed d1 = embed d2
  /\ forall p, post_embed (Decoded (PDict d1)) p = post_embed (Decoded (PDict d2)) p.
Proof.
  intros Hsame.
  assert (He : embed d1 = embed d2).
  { unfold embed. by rewrite (dict_get_same_key d1 d2 _ _ Hsame). }
  split; [done|]. intros p. unfold post_embed. by rewrite He.
Qed.

(** C10: the content of a successful response is the array the encode
    call returned for the request's text, converted by [tolist] and
    nothing else: for a vector, the same numbers in the same order. *)
Theorem embed_returns_raw_output b p v :
  (post_embed b p).1 = Success v ->
  exists payload a,
    b = Decoded (PDict payload)
    /\ (encode (model p) (dict_get payload "text" (PStr ""))).1 = inr a
    /\ v = tolist a
    /\ forall xs : list float, a = vector xs ->
         v = PList (map PFloat xs)
         /\ forall i x, xs !! i = Some x ->
              exists items, v = PList items /\ items !! i = Some (PFloat x).
Proof.
  intros Hok. destruct (post_embed_success _ _ _ Hok) as (payload & a & -> & He & ->).
  exists payload, a. split; [done|]. split; [done|]. split; [done|].
  intros xs ->. split; [apply tolist_vector|].
  intros i x Hx. exists (map PFloat xs). split; [apply tolist_vector|].
  change (map PFloat xs) with (PFloat <$> xs).
  by rewrite list_lookup_fmap, Hx.
Qed.


(** C6, as amended: whatever value [v] the body has under [text], the
    handler passes it to the encode call as it is; when that call raises,
    the response is the framework's generic server error and not 200; a
    200 is produced only when the call returned an array, and then
    carries that array. *)
Theorem text_is_passed_unchecked p payload (v : pyval) :
  payload !! "text"%string = Some v ->
  effects (post_embed (Decoded (PDict payload)) p).2 = effects p ++ [EvEncode v]
  /\ (forall e, (encode (model p) v).1 = inl e ->
        (post_embed (Decoded (PDict payload)) p).1 = InternalServerError
        /\ status_code (post_embed (Decoded (PDict payload)) p).1 <> 200)
  /\ (forall content,
        (post_embed (Decoded (PDict payload)) p).1 = Success content ->
        exists a, (encode (model p) v).1 = inr a /\ content = tolist a).
Proof.
  intros Htext.
  assert (Hget : dict_get payload "text" (PStr "") = v)
    by by apply dict_get_present.
  split; [by rewrite post_embed_effects, Hget|]. split.
  - intros e He.
    assert (Hr : (post_embed (Decoded (PDict payload)) p).1 = InternalServerError).
    { apply (post_embed_fault _ _ e). by rewrite Hget. }
    rewrite Hr. split; [done|cbn; lia].
  - intros content Hok.
    destruct (post_embed_success _ _ _ Hok) as (payload' & a & [= <-] & He & ->).
    exists a. by rewrite <- Hget.
Qed.

(** C9: a [text] that is present and null is not replaced by the empty
    string: the encode call receives [None], where the same body without
    the key makes it receive [""]; with a library that refuses [None]
    the response is the generic server error, where the body without the
    key gets the embedding of the empty string. *)
Theorem null_text_is_not_defaulted p (N : nat) payload :
  payload !! "text"%string = Some PNone ->
  rejects_none (model p) ->
  effects (post_embed (Decoded (PDict payload)) p).2 = effects p ++ [EvEncode PNone]
  /\ effects (post_embed (Decoded (PDict (delete "text"%string payload))) p).2
     = effects p ++ [EvEncode (PStr "")]
  /\ (post_embed (Decoded (PDict payload)) p).1 = InternalServerError
  /\ (has_dimension (model p) N ->
      exists xs : list float,
        (post_embed (Decoded (PDict (delete "text"%string payload))) p).1
        = Success (PList (map PFloat xs))).
Proof.
  intros Hnull [e He].
  assert (Hget : dict_get payload "text" (PStr "") = PNone)
    by by apply dict_get_present.
  assert (Hdel : dict_get (delete "text"%string payload) "text" (PStr "") = PStr "")
    by (apply dict_get_absent, lookup_delete_eq).
  split; [by rewrite post_embed_effects, Hget|].
  split; [by rewrite post_embed_effects, Hdel|].
  split; [apply (post_embed_fault _ _ e); by rewrite Hget|].
  intros Hdim. destruct (Hdim ""%string eq_refl) as (xs & Hxs & _ & Hfin).
  exists xs. apply post_embed_vector; [by rewrite Hdel|done].
Qed.

(** ** The process over its lifetime *)

Lemma post_embed_model b p : read_only -> model (post_embed b p).2 = model p.
Proof.
  intros Hro. destruct b as [|[]| | |]; try reflexivity.
  rewrite post_embed_unfold. cbn. apply Hro.
Qed.

Lemma post_embed_grows b p :
  exists evs, effects (post_embed b p).2 = effects p ++ evs
              /\ forallb is_encode evs = true.
Proof.
  destruct b as [|v| | |]; try (exists []; cbn; by rewrite app_nil_r).
  destruct v; try (exists []; cbn; by rewrite app_nil_r).
  rewrite post_embed_effects. by eexists [_].
Qed.

Lemma loaded_encodes evs : forallb is_encode evs = true -> loaded evs = [].
Proof.
  induction evs as [|[] evs IH]; cbn; done.
Qed.

Lemma serve_cons b rest p :
  serve (b :: rest) p
  = ((post_embed b p).1 :: (serve rest (post_embed b p).2).1,
     (serve rest (post_embed b p).2).2).
Proof.
  cbn [serve]. destruct (post_embed b p) as [r p']. cbn [fst snd].
  by destruct (serve rest p') as [rs p''].
Qed.


Lemma serve_model incoming p : read_only -> model (serve incoming p).2 = model p.
Proof.
  intros Hro. revert p. induction incoming as [|b rest IH]; intros p; [done|].
  rewrite serve_cons. cbn [snd]. by rewrite IH, post_embed_model.
Qed.

Lemma serve_grows incoming p :
  exists evs, effects (serve incoming p).2 = effects p ++ evs
              /\ forallb is_encode evs = true.
Proof.
  revert p. induction incoming as [|b rest IH]; intros p.
  - exists []. cbn. by rewrite app_nil_r.
  - rewrite serve_cons. cbn [snd].
    destruct (post_embed_grows b p) as (evs1 & H1 & Henc1).
    destruct (IH (post_embed b p).2) as (evs2 & H2 & Henc2).
    exists (evs1 ++ evs2). rewrite H2, H1, <- app_assoc. split; [done|].
    rewrite forallb_app. by rewrite Henc1, Henc2.
Qed.

(** C3: two requests with the same string under [text] get the same
    response whatever requests the process has served before each of
    them, given a library whose inference leaves the model as it was. *)
Theorem same_text_same_response (h1 h2 : list body) (d1 d2 : gmap string pyval)
    (s : string) :
  read_only ->
  d1 !! "text"%string = Some (PStr s) ->
  d2 !! "text"%string = Some (PStr s) ->
  response_after h1 (Decoded (PDict d1)) = response_after h2 (Decoded (PDict d2)).
Proof.
  intros Hro H1 H2. unfold response_after.
  rewrite !post_embed_unfold. cbn zeta. cbn [fst].
  rewrite !serve_model by done.
  by rewrite (dict_get_present _ _ _ _ H1), (dict_get_present _ _ _ _ H2).
Qed.

(** C7: handling a request leaves the shared model as it was and does
    nothing to the outside but call encode, given a library whose
    inference leaves the model as it was; over a whole run the model is
    loaded once, before anything else, and the model every request has
    used is that one. *)
Theorem handler_leaves_process_state b p :
  read_only ->
  model (post_embed b p).2 = model p
  /\ (exists evs, effects (post_embed b p).2 = effects p ++ evs
                  /\ forallb is_encode evs = true)
  /\ forall env incoming,
       let q := (script "__main__" env incoming).2 in
       model q = init model_name
       /\ loaded (effects q) = [model_name]
       /\ head (effects q) = Some (EvLoad model_name).
Proof.
  intros Hro. split; [by apply post_embed_model|].
  split; [apply post_embed_grows|].
  intros env incoming q. subst q. unfold script, uvicorn_run.
  rewrite decide_True by done.
  destruct (starts env); [|done].
  set (p0 := {| model := _; effects := _ |}).
  destruct (serve_grows incoming p0) as (evs & Hevs & Henc).
  split; [by rewrite serve_model|].
  rewrite Hevs. subst p0. cbn [effects import_module].
  split; [|done].
  unfold loaded at 1. rewrite omap_app. fold (loaded evs).
  by rewrite (loaded_encodes _ Henc).
Qed.



End Properties.

(** * The service run on the stand-in library *)

Lemma stub_has_dimension (m : string) :
  has_dimension (L := Stub.library) m Stub.stub_dim.
Proof.
  intros s Hs. exists (Stub.embedding s). split; [cbn; by rewrite Hs|].
  destruct s; split; vm_compute; reflexivity.
Qed.

Lemma stub_read_only : read_only (L := Stub.library).
Proof.
  intros m x. destruct x; try reflexivity.
  - cbn. by destruct (well_formed s).
  - cbn. by destruct (mapM Stub.sentence items).
Qed.

Lemma stub_rejects_none (m : string) : rejects_none (L := Stub.library) m.
Proof. by exists (Raise "TypeError"). Qed.

Example hello_is_embedded :
  (post_embed (Decoded (PDict Stub.hello)) Stub.started).1
  = Success (PList (map PFloat (repeat 0.5%float 384))).
Proof. vm_compute. reflexivity. Qed.

Example garbage_is_refused :
  map status_code
    (script (L := Stub.library) (U := Stub.server) "__main__" Stub.no_environment
       [Undecodable; Decoded (PList [PInt 1]); Decoded (PDict Stub.null_text);
        Unparsable; Undeclared "{}"; Absent; Decoded (PDict Stub.surrogate_text);
        Decoded (PDict Stub.no_text)]).1
  = [422; 422; 500; 400; 422; 422; 500; 200].
Proof. vm_compute. reflexivity. Qed.

Example imported_module_does_not_listen :
  effects (script (L := Stub.library) (U := Stub.server)
             "embed_service" Stub.no_environment []).2
  = [EvLoad "all-MiniLM-L6-v2"].
Proof. reflexivity. Qed.

Example surrogate_is_not_text :
  well_formed (String "237" (String "160" (String "128" EmptyString))) = false
  /\ well_formed "hello" = true
  /\ well_formed (String "226" (String "130" (String "172" EmptyString))) = true.
Proof. repeat split; vm_compute; reflexivity. Qed.

(** C1 as stated fails: ["\ud800"] is a string, the encode call refuses
    it, and the response is the generic server error. *)
Lemma string_text_can_fault :
  ~ (forall (p : @process Stub.library) (payload : gmap string pyval) (s : string),
       payload !! "text"%string = Some (PStr s) ->
       status_code (post_embed (Decoded (PDict payload)) p).1 = 200).
Proof.
  intros Hclaim.
  pose proof (Hclaim Stub.started Stub.surrogate_text _ eq_refl) as H.
  vm_compute in H. discriminate H.
Qed.

Lemma embed_string_gives_vector_witness :
  Stub.hello !! "text"%string = Some (PStr "hello")
  /\ exists items,
       (post_embed (Decoded (PDict Stub.hello)) Stub.started).1 = Success (PList items)
       /\ status_code (post_embed (Decoded (PDict Stub.hello)) Stub.started).1 = 200
       /\ length items = 384%nat
       /\ items = map PFloat (Stub.embedding "hello").
Proof.
  split; [reflexivity|].
  destruct (embed_string_gives_vector Stub.started Stub.hello "hello" eq_refl)
    as [Hok _].
  apply (Hok 384%nat (Stub.embedding "hello")).
  - reflexivity.
  - reflexivity.
  - vm_compute. reflexivity.
Defined.

Lemma embed_missing_text_is_empty_string_witness :
  Stub.no_text !! "text"%string = None
  /\ post_embed (Decoded (PDict Stub.no_text)) Stub.started
     = post_embed (Decoded (PDict {[ "text"%string := PStr "" ]})) Stub.started.
Proof.
  split; [reflexivity|].
  apply (embed_missing_text_is_empty_string Stub.started 384 Stub.no_text).
  reflexivity.
Defined.

Lemma same_text_same_response_witness :
  read_only (L := Stub.library)
  /\ response_after (L := Stub.library) [] (Decoded (PDict Stub.hello))
     = response_after (L := Stub.library) [Decoded (PDict Stub.no_text); Undecodable;
                       Decoded (PDict Stub.null_text)]
         (Decoded (PDict Stub.hello_verbose)).
Proof.
  split; [apply stub_read_only|].
  apply (same_text_same_response (L := Stub.library) _ _ _ _ "hello").
  - apply stub_read_only.
  - reflexivity.
  - reflexivity.
Defined.

Lemma embed_reads_only_text_witness :
  Stub.hello !! "text"%string = Stub.hello_verbose !! "text"%string
  /\ post_embed (Decoded (PDict Stub.hello)) Stub.started
     = post_embed (Decoded (PDict Stub.hello_verbose)) Stub.started.
Proof.
  split; [reflexivity|].
  apply (embed_reads_only_text (L := Stub.library) Stub.hello Stub.hello_verbose).
  reflexivity.
Defined.


(** C6 as stated fails: a list of sentences under [text] is not a string,
    and the library encodes it as a batch, so the response is a 200. *)
Lemma nonstring_text_can_succeed :
  ~ (forall (p : @process Stub.library) (payload : gmap string pyval) (v : pyval),
       payload !! "text"%string = Some v ->
       (forall s, v <> PStr s) ->
       status_code (post_embed (Decoded (PDict payload)) p).1 <> 200).
Proof.
  intros Hclaim.
  apply (Hclaim Stub.started Stub.two_sentences (PList [PStr "hello"; PStr "world"])).
  - reflexivity.
  - discriminate.
  - vm_compute. reflexivity.
Qed.

Lemma text_is_passed_unchecked_witness :
  Stub.null_text !! "text"%string = Some PNone
  /\ effects (post_embed (Decoded (PDict Stub.null_text)) Stub.started).2
     = effects Stub.started ++ [EvEncode PNone].
Proof.
  split; [reflexivity|].
  apply (text_is_passed_unchecked Stub.started Stub.null_text PNone).
  reflexivity.
Defined.

Lemma handler_leaves_process_state_witness :
  read_only (L := Stub.library)
  /\ model (post_embed (Decoded (PDict Stub.hello)) Stub.started).2
     = model Stub.started.
Proof.
  split; [apply stub_read_only|].
  apply (handler_leaves_process_state (U := Stub.server)
           (Decoded (PDict Stub.hello)) Stub.started).
  apply stub_read_only.
Defined.



Lemma null_text_is_not_defaulted_witness :
  Stub.null_text !! "text"%string = Some PNone
  /\ rejects_none (model Stub.started)
  /\ (post_embed (Decoded (PDict Stub.null_text)) Stub.started).1 = InternalServerError.
Proof.
  split; [reflexivity|]. split; [apply stub_rejects_none|].
  apply (null_text_is_not_defaulted Stub.started 384 Stub.null_text).
  - reflexivity.
  - apply stub_rejects_none.
Defined.

Lemma embed_returns_raw_output_witness :
  (post_embed (Decoded (PDict Stub.hello)) Stub.started).1
  = Success (PList (map PFloat (Stub.embedding "hello")))
  /\ exists payload a,
       Decoded (PDict Stub.hello) = Decoded (PDict payload)
       /\ (encode (model Stub.started) (dict_get payload "text" (PStr ""))).1 = inr a
       /\ PList (map PFloat (Stub.embedding "hello")) = tolist a.
Proof.
  assert (H : (post_embed (Decoded (PDict Stub.hello)) Stub.started).1
              = Success (PList (map PFloat (Stub.embedding "hello"))))
    by (vm_compute; reflexivity).
  split; [exact H|].
  destruct (embed_returns_raw_output _ _ _ H) as (payload & a & Hb & He & Hv & _).
  exists payload, a. auto.
Defined.

(** * Further properties of the run *)

Section Lifetime.
Context `{L : SentenceTransformer}.

Implicit Types (p q : process) (b : body) (incoming : list body).

Lemma post_embed_calls b p :
  effects (post_embed b p).2
  = effects p ++ map EvEncode (option_list (requested_text b)).
Proof.
  destruct b as [|v| | |]; try (cbn; by rewrite app_nil_r).
  destruct v; try (cbn; by rewrite app_nil_r).
  apply post_embed_effects.
Qed.

Lemma post_embed_same_model b p q :
  model p = model q -> (post_embed b p).1 = (post_embed b q).1.
Proof.
  intros Hm. destruct b as [|[]| | |]; try reflexivity.
  rewrite !post_embed_unfold. cbn zeta. cbn [fst]. by rewrite Hm.
Qed.

(** X1: over any sequence of requests the encode calls are exactly the
    texts of the object bodies, one call each, in arrival order: a
    refused body causes no call, and a text seen before is encoded
    again. *)
Theorem serve_encodes_each_request_once incoming p :
  effects (serve incoming p).2
  = effects p ++ map EvEncode (omap requested_text incoming).
Proof.
  revert p. induction incoming as [|b rest IH]; intros p.
  - cbn. by rewrite app_nil_r.
  - rewrite serve_cons. cbn [snd]. rewrite IH, post_embed_calls, <- app_assoc.
    f_equal. rewrite <- map_app. f_equal.
    cbn [omap list_omap]. by destruct (requested_text b).
Qed.

(** X2: with a library whose inference leaves the model as it was, the
    requests a process serves are answered one by one: each response is
    the one the same request gets alone, whatever came before it, faults
    included. *)
Theorem serve_is_requestwise incoming p :
  read_only ->
  (serve incoming p).1 = map (fun b => (post_embed b p).1) incoming.
Proof.
  intros Hro. revert p.
  induction incoming as [|b rest IH]; intros p; [done|].
  rewrite serve_cons. cbn [fst map]. f_equal. rewrite IH.
  apply map_ext. intros b'. apply post_embed_same_model.
  by apply post_embed_model.
Qed.

End Lifetime.

Lemma serve_is_requestwise_witness :
  read_only (L := Stub.library)
  /\ (serve [Decoded (PDict Stub.null_text); Undecodable; Decoded (PDict Stub.hello)]
        Stub.started).1
     = map (fun b => (post_embed b Stub.started).1)
         [Decoded (PDict Stub.null_text); Undecodable; Decoded (PDict Stub.hello)].
Proof.
  split; [apply stub_read_only|].
  apply (serve_is_requestwise
           [Decoded (PDict Stub.null_text); Undecodable; Decoded (PDict Stub.hello)]
           Stub.started).
  apply stub_read_only.
Defined.
